(** * Groq chatbot API: conversation lifecycle and reply aggregation

    A shallow embedding of [main.py]: the conversation documents kept in the
    MongoDB collection, the get-or-create / save operations, the draining of
    the streamed completion and the [/chat/] handler, followed by the
    properties of the specification that concern them.

    Modelling choices.
    - The collection [conversations_collection] is a list of documents in
      natural order.  [find_one], [update_one] and [delete_one] act on the
      first document whose [conversation_id] matches the filter;
      [insert_one] adds a document at the end.  Nothing in [main.py] declares
      a unique index, so several documents may carry one id.
    - pymongo serialises a document when it is written and builds fresh Python
      objects when it is read, so the list held by a [Conversation] object is
      never shared with the stored document: appending to it in memory leaves
      the collection as it is.  Values are therefore immutable here.
    - [datetime.utcnow()] reads a clock.  The world counts the readings made
      so far and [utcnow_at n] is the value of reading number [n].
    - The completion service is an oracle [completions_create] from the
      message history to either an exception or a finite stream of chunks,
      which may itself end in an exception.
    - Python exceptions do not undo effects: a computation maps a world to an
      outcome (a value or an exception) together with the world it leaves.
    - Every call that leaves the process (to MongoDB or to Groq) is recorded,
      in order, in the [trace] of the world.
    - Transport failures of the MongoDB driver are outside the model. *)

From Stdlib Require Import String List ZArith.
Import ListNotations.
Local Open Scope string_scope.
Local Open Scope list_scope.

(** ** Data *)

(** A message of the history: [{"role": ..., "content": ...}]. *)
Record Message : Type := mkMessage {
  role : string;
  content : string
}.

Definition datetime : Type := Z.

(** The request body of [POST /chat/] (class [UserInput]). *)
Record UserInput : Type := mkUserInput {
  input_message : string;
  input_role : string;
  input_conversation_id : string;
  input_get_or_create_conversation : string
}.

(** Construction of a [UserInput] by pydantic: [role] is the one field with a
    default value. *)
Definition UserInput_parse (message : string) (role_field : option string)
    (conversation_id get_or_create : string) : UserInput :=
  {| input_message := message;
     input_role := match role_field with Some r => r | None => "user" end;
     input_conversation_id := conversation_id;
     input_get_or_create_conversation := get_or_create |}.

(** The in-memory object of class [Conversation]. *)
Record Conversation : Type := mkConversation {
  conversation_id : string;
  messages : list Message;
  active : bool;
  created_at : datetime;
  updated_at : datetime
}.

(** A document of the collection. *)
Record Document : Type := mkDocument {
  doc_conversation_id : string;
  doc_messages : list Message;
  doc_active : bool;
  doc_created_at : datetime;
  doc_updated_at : datetime
}.

(** The body returned by a successful [POST /chat/]. *)
Record ChatResponse : Type := mkChatResponse {
  response : string;
  response_conversation_id : string
}.

(** The body returned by [GET /conversations/{conversation_id}]. *)
Record ConversationView : Type := mkConversationView {
  view_conversation_id : string;
  view_messages : list Message;
  view_created_at : datetime;
  view_updated_at : datetime
}.

(** Exceptions the handlers can see.  [ClientError] stands for whatever the
    Groq client raises; [IndexError] is raised by [chunk.choices[0]] on a chunk
    without choices. *)
Inductive Exception : Type :=
| HTTPException (status_code : Z) (detail : string)
| IndexError
| ClientError (msg : string).

(** One chunk of a streamed completion: [chunk.choices[i].delta.content]. *)
Record Choice : Type := mkChoice { delta_content : option string }.
Record Chunk : Type := mkChunk { choices : list Choice }.

(** The iterator returned by [completions.create(..., stream=True)]. *)
Inductive Stream : Type :=
| StreamEnd
| StreamChunk (chunk : Chunk) (rest : Stream)
| StreamRaise (e : Exception).

(** ** Worlds and computations *)

Inductive Event : Type :=
| FindOne (cid : string)
| InsertOne (d : Document)
| UpdateOne (cid : string) (msgs : list Message) (act : bool) (upd : datetime)
| DeleteOne (cid : string)
| CompletionsCreate (msgs : list Message).

Record World : Type := mkWorld {
  conversations_collection : list Document;
  clock : nat;
  trace : list Event
}.

Inductive Outcome (A : Type) : Type :=
| Returns (a : A)
| Raises (e : Exception).
Arguments Returns {A} a.
Arguments Raises {A} e.

Definition Py (A : Type) : Type := World -> Outcome A * World.

Definition ret {A} (a : A) : Py A := fun w => (Returns a, w).

Definition raise {A} (e : Exception) : Py A := fun w => (Raises e, w).

Definition bind {A B} (c : Py A) (k : A -> Py B) : Py B :=
  fun w =>
    match c w with
    | (Returns a, w') => k a w'
    | (Raises e, w') => (Raises e, w')
    end.

(** [try: c  except Exception as e: handler e]. *)
Definition try_except {A} (c : Py A) (handler : Exception -> Py A) : Py A :=
  fun w =>
    match c w with
    | (Returns a, w') => (Returns a, w')
    | (Raises e, w') => handler e w'
    end.

Definition lift {A} (o : Outcome A) : Py A := fun w => (o, w).

Declare Scope py_scope.
Delimit Scope py_scope with py.
Notation "x <- c ;; k" := (bind c (fun x => k))
  (at level 61, c at next level, right associativity) : py_scope.
Notation "c ;; k" := (bind c (fun _ => k))
  (at level 61, right associativity) : py_scope.
Local Open Scope py_scope.

Definition record (ev : Event) (w : World) : World :=
  {| conversations_collection := conversations_collection w;
     clock := clock w;
     trace := trace w ++ [ev] |}.

Definition with_collection (l : list Document) (w : World) : World :=
  {| conversations_collection := l;
     clock := clock w;
     trace := trace w |}.

(** ** The collection *)

Definition matches (cid : string) (d : Document) : bool :=
  String.eqb (doc_conversation_id d) cid.

Fixpoint find_first (cid : string) (l : list Document) : option Document :=
  match l with
  | [] => None
  | d :: l' => if matches cid d then Some d else find_first cid l'
  end.

Fixpoint set_first (cid : string) (f : Document -> Document)
    (l : list Document) : list Document :=
  match l with
  | [] => []
  | d :: l' => if matches cid d then f d :: l' else d :: set_first cid f l'
  end.

Fixpoint remove_first (cid : string) (l : list Document) : list Document :=
  match l with
  | [] => []
  | d :: l' => if matches cid d then l' else d :: remove_first cid l'
  end.

(** [conversations_collection.find_one({"conversation_id": cid})]. *)
Definition find_one (cid : string) : Py (option Document) :=
  fun w => (Returns (find_first cid (conversations_collection w)),
            record (FindOne cid) w).

(** [conversations_collection.insert_one(d)]. *)
Definition insert_one (d : Document) : Py unit :=
  fun w => (Returns tt,
            record (InsertOne d)
              (with_collection (conversations_collection w ++ [d]) w)).

(** The effect of [{"$set": {"messages": .., "active": .., "updated_at": ..}}]
    on a document. *)
Definition set_fields (msgs : list Message) (act : bool) (upd : datetime)
    (d : Document) : Document :=
  {| doc_conversation_id := doc_conversation_id d;
     doc_messages := msgs;
     doc_active := act;
     doc_created_at := doc_created_at d;
     doc_updated_at := upd |}.

(** [conversations_collection.update_one({"conversation_id": cid},
    {"$set": ..})]; the value is [matched_count].  No [upsert] is requested,
    so a filter that matches nothing leaves the collection alone and raises
    nothing. *)
Definition update_one (cid : string) (msgs : list Message) (act : bool)
    (upd : datetime) : Py nat :=
  fun w =>
    let l := conversations_collection w in
    (Returns (match find_first cid l with Some _ => 1 | None => 0 end)%nat,
     record (UpdateOne cid msgs act upd)
       (with_collection (set_first cid (set_fields msgs act upd) l) w)).

(** [conversations_collection.delete_one({"conversation_id": cid})]; the value
    is [deleted_count]. *)
Definition delete_one (cid : string) : Py nat :=
  fun w =>
    let l := conversations_collection w in
    (Returns (match find_first cid l with Some _ => 1 | None => 0 end)%nat,
     record (DeleteOne cid) (with_collection (remove_first cid l) w)).

(** ** The program *)

Definition system_message : Message :=
  {| role := "system"; content := "You are a useful AI assistant." |}.

Definition assistant_message (reply : string) : Message :=
  {| role := "assistant"; content := reply |}.

Definition user_message (input : UserInput) : Message :=
  {| role := input_role input; content := input_message input |}.

(** [conversation.messages.append(m)]. *)
Definition append (conversation : Conversation) (m : Message) : Conversation :=
  {| conversation_id := conversation_id conversation;
     messages := messages conversation ++ [m];
     active := active conversation;
     created_at := created_at conversation;
     updated_at := updated_at conversation |}.

(** Truthiness of [chunk.choices[0].delta.content]: [None] and the empty
    string are falsy. *)
Definition truthy (c : option string) : bool :=
  match c with
  | Some s => negb (String.eqb s "")
  | None => false
  end.

Definition text_of (c : option string) : string :=
  match c with
  | Some s => s
  | None => ""
  end.

(** The loop [for chunk in completion: ...] of [query_groq_api], started with
    the accumulator [response]. *)
Fixpoint drain (completion : Stream) (response : string) : Outcome string :=
  match completion with
  | StreamEnd => Returns response
  | StreamRaise e => Raises e
  | StreamChunk chunk rest =>
      match choices chunk with
      | [] => Raises IndexError
      | choice :: _ =>
          if truthy (delta_content choice)
          then drain rest (response ++ text_of (delta_content choice))
          else drain rest response
      end
  end.

Section Program.

(** The value of the [n]-th reading of [datetime.utcnow()]. *)
Variable utcnow_at : nat -> datetime.

(** [groq_client.chat.completions.create(model=.., messages=msgs, ..,
    stream=True)]. *)
Variable completions_create : list Message -> Exception + Stream.

(** Python's [str(e)] on an exception; it is defined by the libraries that
    declare the exception classes. *)
Variable str : Exception -> string.

Definition utcnow : Py datetime :=
  fun w => (Returns (utcnow_at (clock w)),
            {| conversations_collection := conversations_collection w;
               clock := S (clock w);
               trace := trace w |}).

Definition groq_completions_create (msgs : list Message) : Py Stream :=
  fun w =>
    (match completions_create msgs with
     | inl e => Raises e
     | inr s => Returns s
     end,
     record (CompletionsCreate msgs) w).

(** [Conversation.__init__]. *)
Definition Conversation_init (cid : string) : Py Conversation :=
  created <- utcnow ;;
  updated <- utcnow ;;
  ret {| conversation_id := cid;
         messages := [system_message];
         active := true;
         created_at := created;
         updated_at := updated |}.

Definition get_or_create_conversation (cid : string) : Py Conversation :=
  conversation_data <- find_one cid ;;
  match conversation_data with
  | Some data =>
      conversation <- Conversation_init cid ;;
      ret {| conversation_id := conversation_id conversation;
             messages := doc_messages data;
             active := doc_active data;
             created_at := doc_created_at data;
             updated_at := updated_at conversation |}
  | None =>
      conversation <- Conversation_init cid ;;
      insert_one {| doc_conversation_id := conversation_id conversation;
                    doc_messages := messages conversation;
                    doc_active := active conversation;
                    doc_created_at := created_at conversation;
                    doc_updated_at := updated_at conversation |} ;;
      ret conversation
  end.

Definition save_conversation (conversation : Conversation) : Py unit :=
  now <- utcnow ;;
  update_one (conversation_id conversation) (messages conversation)
    (active conversation) now ;;
  ret tt.

(** What the completion service answers to a history once its stream has
    been drained: the value, or the exception, seen inside the [try] of
    [query_groq_api]. *)
Definition completion_outcome (msgs : list Message) : Outcome string :=
  match completions_create msgs with
  | inl e => Raises e
  | inr completion => drain completion ""
  end.

Definition query_groq_api (conversation : Conversation) : Py string :=
  try_except
    (completion <- groq_completions_create (messages conversation) ;;
     lift (drain completion ""))
    (fun e =>
       raise (HTTPException 500 ("Error with Groq API: " ++ str e))).

(** The body of the [try] block of [chat]. *)
Definition chat_exchange (input : UserInput) (conversation : Conversation)
    : Py ChatResponse :=
  let conversation := append conversation (user_message input) in
  response <- query_groq_api conversation ;;
  let conversation := append conversation (assistant_message response) in
  save_conversation conversation ;;
  ret {| response := response;
         response_conversation_id := input_conversation_id input |}.

Definition chat (input : UserInput) : Py ChatResponse :=
  conversation <- get_or_create_conversation (input_conversation_id input) ;;
  if negb (active conversation)
  then raise (HTTPException 400
                "The chat session has ended. Please start a new session.")
  else try_except (chat_exchange input conversation)
         (fun e => raise (HTTPException 500 (str e))).

(** The conversation built by [Conversation.__init__] when the clock has
    been read [n] times, and the document [get_or_create_conversation]
    inserts for it. *)
Definition fresh_conversation (cid : string) (n : nat) : Conversation :=
  {| conversation_id := cid;
     messages := [system_message];
     active := true;
     created_at := utcnow_at n;
     updated_at := utcnow_at (S n) |}.

Definition fresh_document (cid : string) (n : nat) : Document :=
  {| doc_conversation_id := cid;
     doc_messages := [system_message];
     doc_active := true;
     doc_created_at := utcnow_at n;
     doc_updated_at := utcnow_at (S n) |}.

Definition get_conversation (cid : string) : Py ConversationView :=
  conversation_data <- find_one cid ;;
  match conversation_data with
  | None => raise (HTTPException 404 "Conversation not found")
  | Some data =>
      ret {| view_conversation_id := doc_conversation_id data;
             view_messages := doc_messages data;
             view_created_at := doc_created_at data;
             view_updated_at := doc_updated_at data |}
  end.

Definition delete_conversation (cid : string) : Py string :=
  deleted_count <- delete_one cid ;;
  if Nat.eqb deleted_count 0
  then raise (HTTPException 404 "Conversation not found")
  else ret "Conversation deleted successfully".

End Program.

(** ** Streams cut into text fragments *)

(** A chunk that carries the text fragment [f] in its first choice. *)
Definition text_chunk (f : string) : Chunk :=
  {| choices := [ {| delta_content := Some f |} ] |}.

(** The stream that delivers the fragments [fs] in order and then ends. *)
Definition stream_of_fragments (fs : list string) : Stream :=
  fold_right (fun f rest => StreamChunk (text_chunk f) rest) StreamEnd fs.

(** The text obtained by writing the fragments one after the other. *)
Definition total_output (fs : list string) : string :=
  fold_right String.append "" fs.

(** A completion service that streams the fragments [fs] whatever it is
    asked. *)
Definition streaming (fs : list string) : list Message -> Exception + Stream :=
  fun _ => inr (stream_of_fragments fs).

(** ** Concrete worlds used to run the program *)

Definition sample_utcnow_at (n : nat) : datetime := (1000 + Z.of_nat n)%Z.

Definition sample_str (e : Exception) : string :=
  match e with
  | HTTPException _ d => d
  | IndexError => "list index out of range"
  | ClientError m => m
  end.

Definition unreachable_service : list Message -> Exception + Stream :=
  fun _ => inl (ClientError "connection refused").

Definition empty_world : World :=
  {| conversations_collection := []; clock := 0; trace := [] |}.

Definition stored_c1 : Document :=
  {| doc_conversation_id := "c1";
     doc_messages := [system_message;
                      {| role := "user"; content := "hi" |};
                      {| role := "assistant"; content := "hello" |}];
     doc_active := true;
     doc_created_at := 3%Z;
     doc_updated_at := 5%Z |}.

Definition stored_c2 : Document :=
  {| doc_conversation_id := "c2";
     doc_messages := [system_message];
     doc_active := false;
     doc_created_at := 1%Z;
     doc_updated_at := 2%Z |}.

Definition seeded_world : World :=
  {| conversations_collection := [stored_c1; stored_c2];
     clock := 0;
     trace := [] |}.

Definition input_c1 : UserInput := UserInput_parse "again" None "c1" "".
Definition input_c2 : UserInput := UserInput_parse "hi" None "c2" "".
Definition input_c3 : UserInput := UserInput_parse "test" None "c3" "".

Definition ghost_conversation : Conversation :=
  {| conversation_id := "ghost";
     messages := [system_message];
     active := true;
     created_at := 7%Z;
     updated_at := 7%Z |}.

(** The conversation object [get_or_create_conversation] builds for "c1" in
    [seeded_world] under [sample_utcnow_at], and the world it leaves. *)
Definition loaded_c1 : Conversation :=
  {| conversation_id := "c1";
     messages := doc_messages stored_c1;
     active := true;
     created_at := 3%Z;
     updated_at := 1001%Z |}.

Definition seeded_world_c1_loaded : World :=
  {| conversations_collection := [stored_c1; stored_c2];
     clock := 2;
     trace := [FindOne "c1"] |}.

(** ** Streams given chunk by chunk *)

(** The stream that delivers the chunks [cs] and then goes on as [ending]. *)
Definition stream_of_chunks (cs : list Chunk) (ending : Stream) : Stream :=
  fold_right StreamChunk ending cs.

(** [chunk.choices] is not empty. *)
Definition has_choice (c : Chunk) : bool :=
  match choices c with
  | [] => false
  | _ :: _ => true
  end.

(** The text a chunk adds to the reply: the content of its first choice,
    nothing when that content is [None]. *)
Definition first_text (c : Chunk) : string :=
  match choices c with
  | [] => ""
  | choice :: _ => text_of (delta_content choice)
  end.

(** ** Measures on the collection *)

Definition ids (l : list Document) : list string :=
  map doc_conversation_id l.

(** Number of documents carrying the id. *)
Definition count_id (cid : string) (l : list Document) : nat :=
  length (filter (matches cid) l).

(** The documents carrying another id. *)
Definition others (cid : string) (l : list Document) : list Document :=
  filter (fun d => negb (matches cid d)) l.

(** [messages[0]["role"] == "system"] holds in the document. *)
Definition starts_with_system (d : Document) : bool :=
  match doc_messages d with
  | [] => false
  | m :: _ => String.eqb (role m) "system"
  end.

(** What a document keeps for life: its id, its flag and its creation
    time. *)
Definition identity_of (d : Document) : string * bool * datetime :=
  (doc_conversation_id d, doc_active d, doc_created_at d).

(** The message list a chat on [cid] starts from: the stored one, or the
    system message alone when the id has no document yet. *)
Definition history (cid : string) (l : list Document) : list Message :=
  match find_first cid l with
  | Some d => doc_messages d
  | None => [system_message]
  end.

(** A chat on [cid] passes the [active] check: the stored flag is true, or
    the id has no document yet. *)
Definition usable (cid : string) (l : list Document) : bool :=
  match find_first cid l with
  | Some d => doc_active d
  | None => true
  end.

(** ** More concrete data *)

Definition sample_chunks : list Chunk :=
  [text_chunk "hel";
   {| choices := [{| delta_content := None |}] |};
   {| choices := [{| delta_content := Some "lo" |};
                  {| delta_content := Some "ignored" |}] |};
   text_chunk ""].


(** A completion service that streams [sample_chunks] and then goes on as
    [ending], whatever it is asked. *)
Definition chunked_service (ending : Stream)
    : list Message -> Exception + Stream :=
  fun _ => inr (stream_of_chunks sample_chunks ending).

Definition input_c3_retry : UserInput :=
  UserInput_parse "test again" None "c3" "".

(** * Properties *)

(** ** Strings *)

Lemma append_empty_r (s : string) : (s ++ "")%string = s.
Proof. induction s as [|a s IH]; simpl; [reflexivity | now rewrite IH]. Qed.

Lemma append_assoc (s1 s2 s3 : string) :
  ((s1 ++ s2) ++ s3 = s1 ++ (s2 ++ s3))%string.
Proof. induction s1 as [|a s1 IH]; simpl; [reflexivity | now rewrite IH]. Qed.

(** ** The collection *)

Lemma find_first_id cid l d :
  find_first cid l = Some d -> doc_conversation_id d = cid.
Proof.
  induction l as [|d0 l IH]; simpl; [discriminate|].
  destruct (matches cid d0) eqn:E; [|exact IH].
  intros H; injection H as <-. now apply String.eqb_eq.
Qed.

Lemma find_first_insert cid l d :
  find_first cid l = None ->
  find_first cid (l ++ [d]) = if matches cid d then Some d else None.
Proof.
  induction l as [|d0 l IH]; simpl; [reflexivity|].
  destruct (matches cid d0); [discriminate | exact IH].
Qed.

Lemma find_first_set_first cid f l :
  (forall d, doc_conversation_id (f d) = doc_conversation_id d) ->
  find_first cid (set_first cid f l) = option_map f (find_first cid l).
Proof.
  intros Hf. induction l as [|d0 l IH]; simpl; [reflexivity|].
  destruct (matches cid d0) eqn:E; simpl.
  - unfold matches in *. now rewrite Hf, E.
  - now rewrite E.
Qed.

Lemma set_first_absent cid f l :
  find_first cid l = None -> set_first cid f l = l.
Proof.
  induction l as [|d0 l IH]; simpl; [reflexivity|].
  destruct (matches cid d0); [discriminate|].
  intros H. now rewrite IH.
Qed.

Lemma map_set_first {B} (g : Document -> B) cid f l :
  (forall d, g (f d) = g d) -> map g (set_first cid f l) = map g l.
Proof.
  intros Hg. induction l as [|d0 l IH]; simpl; [reflexivity|].
  destruct (matches cid d0); simpl; [now rewrite Hg | now rewrite IH].
Qed.

Lemma filter_set_first cid f l :
  (forall d, doc_conversation_id (f d) = doc_conversation_id d) ->
  filter (fun d => negb (matches cid d)) (set_first cid f l) =
  filter (fun d => negb (matches cid d)) l.
Proof.
  intros Hf. induction l as [|d0 l IH]; simpl; [reflexivity|].
  destruct (matches cid d0) eqn:E; simpl.
  - unfold matches in *. now rewrite Hf, E.
  - now rewrite E, IH.
Qed.

(** ** Draining a stream *)

Lemma drain_fragments fs acc :
  drain (stream_of_fragments fs) acc = Returns (acc ++ total_output fs)%string.
Proof.
  revert acc. induction fs as [|f fs IH]; intros acc; simpl.
  - now rewrite append_empty_r.
  - destruct (String.eqb_spec f "") as [->|_]; simpl; rewrite IH.
    + reflexivity.
    + now rewrite append_assoc.
Qed.

Section Runs.

Variable utcnow_at : nat -> datetime.
Variable completions_create : list Message -> Exception + Stream.
Variable str : Exception -> string.

Lemma get_or_create_conversation_run cid w :
  get_or_create_conversation utcnow_at cid w =
  match find_first cid (conversations_collection w) with
  | Some data =>
      (Returns {| conversation_id := cid;
                  messages := doc_messages data;
                  active := doc_active data;
                  created_at := doc_created_at data;
                  updated_at := utcnow_at (S (clock w)) |},
       {| conversations_collection := conversations_collection w;
          clock := S (S (clock w));
          trace := trace w ++ [FindOne cid] |})
  | None =>
      (Returns (fresh_conversation utcnow_at cid (clock w)),
       {| conversations_collection :=
            conversations_collection w
              ++ [fresh_document utcnow_at cid (clock w)];
          clock := S (S (clock w));
          trace := (trace w ++ [FindOne cid])
                     ++ [InsertOne (fresh_document utcnow_at cid (clock w))] |})
  end.
Proof.
  unfold get_or_create_conversation, bind, find_one; simpl.
  destruct (find_first cid (conversations_collection w)); reflexivity.
Qed.

Lemma save_conversation_run conversation w :
  save_conversation utcnow_at conversation w =
  (Returns tt,
   {| conversations_collection :=
        set_first (conversation_id conversation)
          (set_fields (messages conversation) (active conversation)
             (utcnow_at (clock w)))
          (conversations_collection w);
      clock := S (clock w);
      trace := trace w ++ [UpdateOne (conversation_id conversation)
                             (messages conversation) (active conversation)
                             (utcnow_at (clock w))] |}).
Proof. reflexivity. Qed.

Lemma query_groq_api_run conversation w :
  query_groq_api completions_create str conversation w =
  (match completion_outcome completions_create (messages conversation) with
   | Returns reply => Returns reply
   | Raises e => Raises (HTTPException 500 ("Error with Groq API: " ++ str e))
   end,
   record (CompletionsCreate (messages conversation)) w).
Proof.
  unfold query_groq_api, try_except, bind, groq_completions_create, lift,
    completion_outcome, raise.
  destruct (completions_create (messages conversation)) as [e|s];
    [reflexivity|].
  destruct (drain s ""); reflexivity.
Qed.

Lemma chat_run input w :
  chat utcnow_at completions_create str input w =
  match get_or_create_conversation utcnow_at (input_conversation_id input) w
  with
  | (Returns conversation, w1) =>
      if negb (active conversation)
      then (Raises (HTTPException 400
              "The chat session has ended. Please start a new session."), w1)
      else try_except
             (chat_exchange utcnow_at completions_create str input conversation)
             (fun e => raise (HTTPException 500 (str e))) w1
  | (Raises e, w1) => (Raises e, w1)
  end.
Proof.
  unfold chat, bind.
  destruct (get_or_create_conversation utcnow_at
              (input_conversation_id input) w) as [[conversation|e] w1];
    [|reflexivity].
  destruct (negb (active conversation)); reflexivity.
Qed.

Lemma chat_exchange_run input conversation w :
  try_except
    (chat_exchange utcnow_at completions_create str input conversation)
    (fun e => raise (HTTPException 500 (str e))) w =
  match completion_outcome completions_create
          (messages conversation ++ [user_message input]) with
  | Raises e =>
      (Raises (HTTPException 500
                 (str (HTTPException 500 ("Error with Groq API: " ++ str e)))),
       record (CompletionsCreate
                 (messages conversation ++ [user_message input])) w)
  | Returns reply =>
      (Returns {| response := reply;
                  response_conversation_id := input_conversation_id input |},
       {| conversations_collection :=
            set_first (conversation_id conversation)
              (set_fields
                 (messages conversation
                    ++ [user_message input; assistant_message reply])
                 (active conversation) (utcnow_at (clock w)))
              (conversations_collection w);
          clock := S (clock w);
          trace := trace w
                     ++ [CompletionsCreate
                           (messages conversation ++ [user_message input]);
                         UpdateOne (conversation_id conversation)
                           (messages conversation
                              ++ [user_message input; assistant_message reply])
                           (active conversation) (utcnow_at (clock w))] |})
  end.
Proof.
  unfold try_except, chat_exchange, bind.
  rewrite query_groq_api_run. simpl messages.
  destruct (completion_outcome completions_create
              (messages conversation ++ [user_message input])) as [reply|e];
    [|reflexivity].
  rewrite save_conversation_run. unfold ret; simpl.
  now rewrite <- !app_assoc.
Qed.

End Runs.

(** ** The claims of the specification *)

Section Claims.

Variable utcnow_at : nat -> datetime.
Variable completions_create : list Message -> Exception + Stream.
Variable str : Exception -> string.

(** What [get_or_create_conversation] does when a document carries the id. *)
Lemma get_or_create_present cid w data :
  find_first cid (conversations_collection w) = Some data ->
  exists conv w',
    get_or_create_conversation utcnow_at cid w = (Returns conv, w') /\
    conversation_id conv = cid /\
    messages conv = doc_messages data /\
    active conv = doc_active data /\
    created_at conv = doc_created_at data /\
    updated_at conv = utcnow_at (S (clock w)) /\
    conversations_collection w' = conversations_collection w /\
    trace w' = trace w ++ [FindOne cid].
Proof.
  intros H. rewrite get_or_create_conversation_run, H.
  eexists _, _. repeat split.
Qed.

(** What it does when no document carries the id. *)
Lemma get_or_create_absent cid w :
  find_first cid (conversations_collection w) = None ->
  exists w',
    get_or_create_conversation utcnow_at cid w =
      (Returns (fresh_conversation utcnow_at cid (clock w)), w') /\
    conversations_collection w' =
      conversations_collection w ++ [fresh_document utcnow_at cid (clock w)] /\
    find_first cid (conversations_collection w') =
      Some (fresh_document utcnow_at cid (clock w)) /\
    trace w' = trace w ++ [FindOne cid;
                           InsertOne (fresh_document utcnow_at cid (clock w))].
Proof.
  intros H. rewrite get_or_create_conversation_run, H.
  eexists. split; [reflexivity|]. simpl.
  rewrite (find_first_insert _ _ _ H). unfold matches; simpl.
  rewrite String.eqb_refl, <- app_assoc. repeat split.
Qed.

(** C7.  For an id that no document of the collection carries,
    [get_or_create_conversation] returns a conversation whose message list
    is the single message with role "system" and content
    "You are a useful AI assistant.", whose [active] flag is true, and it
    persists a document with the same content: the collection grows by that
    one document, which a later [find_one] on the id finds. *)
Theorem get_or_create_fresh cid w :
  find_first cid (conversations_collection w) = None ->
  exists conv w' d,
    get_or_create_conversation utcnow_at cid w = (Returns conv, w') /\
    length (messages conv) = 1%nat /\
    messages conv =
      [{| role := "system"; content := "You are a useful AI assistant." |}] /\
    active conv = true /\
    conversation_id conv = cid /\
    conversations_collection w' = conversations_collection w ++ [d] /\
    find_first cid (conversations_collection w') = Some d /\
    doc_conversation_id d = cid /\
    doc_messages d = messages conv /\
    doc_active d = true /\
    doc_created_at d = created_at conv /\
    doc_updated_at d = updated_at conv.
Proof.
  intros H. destruct (get_or_create_absent cid w H) as (w' & R & K & F & _).
  exists (fresh_conversation utcnow_at cid (clock w)), w',
    (fresh_document utcnow_at cid (clock w)).
  repeat split; assumption.
Qed.

(** C8.  Two calls of [get_or_create_conversation] on the same id, the second
    in the world left by the first, both return, and the two conversations
    carry the same message list; the second call leaves the collection as the
    first one left it. *)
Theorem get_or_create_twice cid w :
  exists c1 w1 c2 w2,
    get_or_create_conversation utcnow_at cid w = (Returns c1, w1) /\
    get_or_create_conversation utcnow_at cid w1 = (Returns c2, w2) /\
    messages c1 = messages c2 /\
    conversations_collection w2 = conversations_collection w1.
Proof.
  destruct (find_first cid (conversations_collection w)) as [data|] eqn:H.
  - destruct (get_or_create_present cid w data H)
      as (c1 & w1 & R1 & _ & M1 & _ & _ & _ & K1 & _).
    assert (H1 : find_first cid (conversations_collection w1) = Some data)
      by now rewrite K1.
    destruct (get_or_create_present cid w1 data H1)
      as (c2 & w2 & R2 & _ & M2 & _ & _ & _ & K2 & _).
    exists c1, w1, c2, w2. repeat split; try assumption. congruence.
  - destruct (get_or_create_absent cid w H) as (w1 & R1 & _ & F1 & _).
    destruct (get_or_create_present cid w1 _ F1)
      as (c2 & w2 & R2 & _ & M2 & _ & _ & _ & K2 & _).
    exists (fresh_conversation utcnow_at cid (clock w)), w1, c2, w2.
    repeat split; try assumption. now rewrite M2.
Qed.

(** After [get_or_create_conversation] the id has a document, and that
    document holds the message list and the flag of the conversation. *)
Lemma get_or_create_persisted cid w conv w1 :
  get_or_create_conversation utcnow_at cid w = (Returns conv, w1) ->
  conversation_id conv = cid /\
  exists d,
    find_first cid (conversations_collection w1) = Some d /\
    doc_messages d = messages conv /\
    doc_active d = active conv.
Proof.
  destruct (find_first cid (conversations_collection w)) as [data|] eqn:H.
  - destruct (get_or_create_present cid w data H)
      as (c & w' & R & I & M & A & _ & _ & K & _).
    rewrite R. intros E; injection E as <- <-.
    split; [assumption|]. exists data. rewrite K. auto.
  - destruct (get_or_create_absent cid w H) as (w' & R & _ & F & _).
    rewrite R. intros E; injection E as <- <-.
    split; [reflexivity|]. eexists; split; [exact F|]. split; reflexivity.
Qed.

(** C3 (amended).  [save_conversation] always returns.  When a document
    carries the conversation's id, the first such document gets the
    conversation's messages and active flag and the current clock reading as
    [updated_at], and keeps its other fields; when no document carries the id
    the collection is left as it was and nothing is raised. *)
Theorem save_conversation_overwrites conversation w :
  exists w',
    save_conversation utcnow_at conversation w = (Returns tt, w') /\
    match find_first (conversation_id conversation)
            (conversations_collection w) with
    | Some d =>
        find_first (conversation_id conversation)
          (conversations_collection w') =
        Some {| doc_conversation_id := doc_conversation_id d;
                doc_messages := messages conversation;
                doc_active := active conversation;
                doc_created_at := doc_created_at d;
                doc_updated_at := utcnow_at (clock w) |}
    | None => conversations_collection w' = conversations_collection w
    end.
Proof.
  rewrite save_conversation_run. eexists; split; [reflexivity|]. simpl.
  destruct (find_first (conversation_id conversation)
              (conversations_collection w)) as [d|] eqn:H.
  - rewrite find_first_set_first by reflexivity. now rewrite H.
  - now apply set_first_absent.
Qed.

(** C10.  [save_conversation] leaves the [conversation_id] and the
    [created_at] of every document, position by position, as they were; in
    particular those of the document found under the conversation's id.
    Documents carrying another id are not touched at all. *)
Theorem save_conversation_frame conversation w :
  let cid := conversation_id conversation in
  let before := conversations_collection w in
  let after :=
    conversations_collection (snd (save_conversation utcnow_at conversation w))
  in
  map doc_conversation_id after = map doc_conversation_id before /\
  map doc_created_at after = map doc_created_at before /\
  option_map doc_conversation_id (find_first cid after) =
    option_map doc_conversation_id (find_first cid before) /\
  option_map doc_created_at (find_first cid after) =
    option_map doc_created_at (find_first cid before) /\
  filter (fun d => negb (matches cid d)) after =
    filter (fun d => negb (matches cid d)) before.
Proof.
  rewrite save_conversation_run; simpl.
  repeat split.
  - now apply map_set_first.
  - now apply map_set_first.
  - rewrite find_first_set_first by reflexivity.
    now destruct (find_first _ _).
  - rewrite find_first_set_first by reflexivity.
    now destruct (find_first _ _).
  - now apply filter_set_first.
Qed.

(** C4.  When the document found under the request's id has [active] false,
    [chat] raises the HTTP 400 exception, the only call that left the process
    is the [find_one], and the collection, hence the stored document, is
    what it was before the call. *)
Theorem chat_inactive input w d :
  find_first (input_conversation_id input) (conversations_collection w)
    = Some d ->
  doc_active d = false ->
  exists w',
    chat utcnow_at completions_create str input w =
      (Raises (HTTPException 400
                 "The chat session has ended. Please start a new session."),
       w') /\
    conversations_collection w' = conversations_collection w /\
    find_first (input_conversation_id input) (conversations_collection w')
      = Some d /\
    trace w' = trace w ++ [FindOne (input_conversation_id input)].
Proof.
  intros H A.
  destruct (get_or_create_present _ w d H)
    as (c & w' & R & _ & _ & Ac & _ & _ & K & T).
  exists w'. rewrite chat_run, R, Ac, A. simpl.
  rewrite K. auto.
Qed.

(** C5.  A chat exchange on an active conversation whose completion succeeds
    returns the reply, and the document then stored under the id holds the
    message list the conversation had when it was loaded or created, followed
    by exactly two messages: the request's text under the caller's role
    ("user" when the request names none), then the reply under the role
    "assistant".  That list is what the one [update_one] of the exchange
    wrote.  For an id that had a document the list it starts from is the
    stored one. *)
Theorem chat_appends_user_then_assistant
    message role_field cid g w conv w1 reply :
  let input := UserInput_parse message role_field cid g in
  let asked :=
    {| role := match role_field with Some r => r | None => "user" end;
       content := message |} in
  let answered := {| role := "assistant"; content := reply |} in
  get_or_create_conversation utcnow_at cid w = (Returns conv, w1) ->
  active conv = true ->
  completion_outcome completions_create (messages conv ++ [asked])
    = Returns reply ->
  exists w2 d,
    chat utcnow_at completions_create str input w =
      (Returns {| response := reply; response_conversation_id := cid |}, w2) /\
    find_first cid (conversations_collection w2) = Some d /\
    doc_messages d = messages conv ++ [asked; answered] /\
    length (doc_messages d) = (length (messages conv) + 2)%nat /\
    trace w2 = trace w1 ++ [CompletionsCreate (messages conv ++ [asked]);
                            UpdateOne cid (messages conv ++ [asked; answered])
                              true (utcnow_at (clock w1))] /\
    (forall d0, find_first cid (conversations_collection w) = Some d0 ->
                messages conv = doc_messages d0).
Proof.
  intros input asked answered R A O.
  destruct (get_or_create_persisted cid w conv w1 R) as (I & d1 & F1 & _ & _).
  rewrite chat_run. simpl input_conversation_id. rewrite R, A. simpl negb.
  cbv iota. rewrite chat_exchange_run.
  change (user_message input) with asked. rewrite O.
  eexists. eexists. split; [reflexivity|]. simpl.
  rewrite I, A, find_first_set_first, F1 by reflexivity. simpl.
  split; [reflexivity|]. simpl.
  split; [reflexivity|].
  split; [now rewrite length_app|].
  split; [reflexivity|].
  intros d0 H0.
  destruct (get_or_create_present cid w d0 H0) as (c & w' & R' & _ & M & _).
  rewrite R in R'. injection R' as <- _. exact M.
Qed.

(** C9.  For an id that no document carries, [chat] first inserts the
    document of the new conversation, holding the system message only, and
    calls the completion service afterwards.  When that call fails, [chat]
    raises the HTTP 500 exception and the inserted document stays in the
    collection. *)
Theorem chat_fresh_failure_keeps_creation input w e :
  let cid := input_conversation_id input in
  let d := fresh_document utcnow_at cid (clock w) in
  find_first cid (conversations_collection w) = None ->
  completion_outcome completions_create [system_message; user_message input]
    = Raises e ->
  exists w2,
    chat utcnow_at completions_create str input w =
      (Raises (HTTPException 500
                 (str (HTTPException 500
                         ("Error with Groq API: " ++ str e)))), w2) /\
    conversations_collection w2 = conversations_collection w ++ [d] /\
    find_first cid (conversations_collection w2) = Some d /\
    doc_messages d = [system_message] /\
    trace w2 = trace w ++ [FindOne cid; InsertOne d;
                           CompletionsCreate
                             [system_message; user_message input]].
Proof.
  intros cid d H O.
  destruct (get_or_create_absent cid w H) as (w1 & R & K & F & T).
  rewrite chat_run. fold cid. rewrite R. simpl negb. cbv iota.
  rewrite chat_exchange_run. simpl messages. simpl app. rewrite O.
  eexists. split; [reflexivity|]. simpl.
  rewrite F, K, T, <- app_assoc. repeat split.
Qed.

(** C1 (amended).  When the completion fails after the user message was
    appended, [chat] raises the HTTP 500 exception whose detail is built from
    the upstream exception, and from the moment [get_or_create_conversation]
    returned nothing is written: the collection is the one it left and the
    only call made since is the completion request.  When the id already had
    a document the collection is the one [chat] started from. *)
Theorem chat_completion_failure_no_update input w conv w1 e :
  get_or_create_conversation utcnow_at (input_conversation_id input) w
    = (Returns conv, w1) ->
  active conv = true ->
  completion_outcome completions_create (messages conv ++ [user_message input])
    = Raises e ->
  exists w2,
    chat utcnow_at completions_create str input w =
      (Raises (HTTPException 500
                 (str (HTTPException 500
                         ("Error with Groq API: " ++ str e)))), w2) /\
    conversations_collection w2 = conversations_collection w1 /\
    trace w2 = trace w1 ++ [CompletionsCreate
                              (messages conv ++ [user_message input])] /\
    (find_first (input_conversation_id input) (conversations_collection w)
       <> None ->
     conversations_collection w2 = conversations_collection w).
Proof.
  intros R A O. rewrite chat_run, R, A. simpl negb. cbv iota.
  rewrite chat_exchange_run, O.
  eexists. split; [reflexivity|]. simpl. repeat split.
  intros H.
  destruct (find_first (input_conversation_id input)
              (conversations_collection w)) as [d0|] eqn:H0; [|congruence].
  destruct (get_or_create_present _ w d0 H0)
    as (c & w' & R' & _ & _ & _ & _ & _ & K & _).
  rewrite R in R'. injection R' as _ <-. exact K.
Qed.

(** C6.  Draining the stream of the fragments [f1], [f2], [f3] and draining
    the stream of [f1 ++ f2], [f3] give [query_groq_api] the same result; for
    any list of fragments the reply is the text of the fragments written one
    after the other, so it depends on the total output only and not on where
    the stream is cut. *)
Theorem aggregation_independent_of_chunking conversation w f1 f2 f3 :
  query_groq_api (streaming [f1; f2; f3]) str conversation w =
    query_groq_api (streaming [(f1 ++ f2)%string; f3]) str conversation w /\
  fst (query_groq_api (streaming [f1; f2; f3]) str conversation w) =
    Returns (f1 ++ f2 ++ f3)%string /\
  (forall fs,
     fst (query_groq_api (streaming fs) str conversation w) =
       Returns (total_output fs)).
Proof.
  assert (G : forall fs,
             query_groq_api (streaming fs) str conversation w =
             (Returns (total_output fs),
              record (CompletionsCreate (messages conversation)) w)).
  { intros fs. rewrite query_groq_api_run.
    unfold completion_outcome, streaming. now rewrite drain_fragments. }
  split; [|split].
  - rewrite !G. unfold total_output; simpl.
    now rewrite !append_empty_r, append_assoc.
  - rewrite G. unfold total_output; simpl. now rewrite append_empty_r.
  - intros fs. now rewrite G.
Qed.

End Claims.

(** ** Runs in concrete worlds *)

(** Creation of "c1" in the empty store. *)
Lemma get_or_create_fresh_witness :
  find_first "c1" (conversations_collection empty_world) = None /\
  exists conv w' d,
    get_or_create_conversation sample_utcnow_at "c1" empty_world
      = (Returns conv, w') /\
    length (messages conv) = 1%nat /\
    messages conv =
      [{| role := "system"; content := "You are a useful AI assistant." |}] /\
    active conv = true /\
    conversation_id conv = "c1" /\
    conversations_collection w' = conversations_collection empty_world ++ [d] /\
    find_first "c1" (conversations_collection w') = Some d /\
    doc_conversation_id d = "c1" /\
    doc_messages d = messages conv /\
    doc_active d = true /\
    doc_created_at d = created_at conv /\
    doc_updated_at d = updated_at conv.
Proof.
  split; [reflexivity|].
  apply (get_or_create_fresh sample_utcnow_at "c1" empty_world).
  reflexivity.
Defined.

(** C2.  The collection of [seeded_world] holds a document for "c1" whose
    [updated_at] is 5.  [get_or_create_conversation] hands over its messages,
    its active flag and its [created_at], but the [updated_at] of the
    conversation it returns is the clock reading 1001 taken by
    [Conversation.__init__], not the stored 5. *)
Theorem get_or_create_updated_at_not_loaded :
  find_first "c1" (conversations_collection seeded_world) = Some stored_c1 /\
  get_or_create_conversation sample_utcnow_at "c1" seeded_world
    = (Returns loaded_c1, seeded_world_c1_loaded) /\
  messages loaded_c1 = doc_messages stored_c1 /\
  active loaded_c1 = doc_active stored_c1 /\
  created_at loaded_c1 = doc_created_at stored_c1 /\
  updated_at loaded_c1 = 1001%Z /\
  doc_updated_at stored_c1 = 5%Z /\
  updated_at loaded_c1 <> doc_updated_at stored_c1.
Proof. repeat split. discriminate. Qed.

(** C3, as stated, fails: no document of [empty_world] carries the id
    "ghost", yet [save_conversation] returns and raises nothing; the
    collection stays empty. *)
Lemma save_conversation_missing_record_returns :
  find_first "ghost" (conversations_collection empty_world) = None /\
  save_conversation sample_utcnow_at ghost_conversation empty_world =
    (Returns tt,
     {| conversations_collection := [];
        clock := 1;
        trace := [UpdateOne "ghost" [system_message] true 1000%Z] |}).
Proof. split; reflexivity. Qed.

(** Chat on the seeded inactive conversation "c2". *)
Lemma chat_inactive_witness :
  find_first (input_conversation_id input_c2)
    (conversations_collection seeded_world) = Some stored_c2 /\
  doc_active stored_c2 = false /\
  exists w',
    chat sample_utcnow_at unreachable_service sample_str input_c2 seeded_world =
      (Raises (HTTPException 400
                 "The chat session has ended. Please start a new session."),
       w') /\
    conversations_collection w' = conversations_collection seeded_world /\
    find_first (input_conversation_id input_c2) (conversations_collection w')
      = Some stored_c2 /\
    trace w' = trace seeded_world ++ [FindOne (input_conversation_id input_c2)].
Proof.
  split; [reflexivity|]. split; [reflexivity|].
  apply (chat_inactive sample_utcnow_at unreachable_service sample_str
           input_c2 seeded_world stored_c2); reflexivity.
Defined.

(** Chat on the seeded conversation "c1", answered by "hel" then "lo". *)
Lemma chat_appends_user_then_assistant_witness :
  get_or_create_conversation sample_utcnow_at "c1" seeded_world
    = (Returns loaded_c1, seeded_world_c1_loaded) /\
  active loaded_c1 = true /\
  completion_outcome (streaming ["hel"; "lo"])
    (messages loaded_c1 ++ [{| role := "user"; content := "again" |}])
    = Returns "hello" /\
  exists w2 d,
    chat sample_utcnow_at (streaming ["hel"; "lo"]) sample_str
      (UserInput_parse "again" None "c1" "") seeded_world =
      (Returns {| response := "hello"; response_conversation_id := "c1" |},
       w2) /\
    find_first "c1" (conversations_collection w2) = Some d /\
    doc_messages d =
      messages loaded_c1 ++ [{| role := "user"; content := "again" |};
                             {| role := "assistant"; content := "hello" |}] /\
    length (doc_messages d) = (length (messages loaded_c1) + 2)%nat /\
    trace w2 =
      trace seeded_world_c1_loaded
        ++ [CompletionsCreate
              (messages loaded_c1
                 ++ [{| role := "user"; content := "again" |}]);
            UpdateOne "c1"
              (messages loaded_c1
                 ++ [{| role := "user"; content := "again" |};
                     {| role := "assistant"; content := "hello" |}])
              true (sample_utcnow_at (clock seeded_world_c1_loaded))] /\
    (forall d0,
       find_first "c1" (conversations_collection seeded_world) = Some d0 ->
       messages loaded_c1 = doc_messages d0).
Proof.
  split; [reflexivity|]. split; [reflexivity|]. split; [reflexivity|].
  apply (chat_appends_user_then_assistant sample_utcnow_at
           (streaming ["hel"; "lo"]) sample_str "again" None "c1" ""
           seeded_world loaded_c1 seeded_world_c1_loaded "hello");
    reflexivity.
Defined.

(** Chat on the unknown id "c3" while the completion service is down. *)
Lemma chat_fresh_failure_keeps_creation_witness :
  find_first "c3" (conversations_collection empty_world) = None /\
  completion_outcome unreachable_service
    [system_message; user_message input_c3]
    = Raises (ClientError "connection refused") /\
  exists w2,
    chat sample_utcnow_at unreachable_service sample_str input_c3 empty_world =
      (Raises (HTTPException 500
                 (sample_str
                    (HTTPException 500
                       ("Error with Groq API: "
                          ++ sample_str (ClientError "connection refused"))))),
       w2) /\
    conversations_collection w2 =
      conversations_collection empty_world
        ++ [fresh_document sample_utcnow_at "c3" 0] /\
    find_first "c3" (conversations_collection w2) =
      Some (fresh_document sample_utcnow_at "c3" 0) /\
    doc_messages (fresh_document sample_utcnow_at "c3" 0) = [system_message] /\
    trace w2 =
      trace empty_world
        ++ [FindOne "c3"; InsertOne (fresh_document sample_utcnow_at "c3" 0);
            CompletionsCreate [system_message; user_message input_c3]].
Proof.
  split; [reflexivity|]. split; [reflexivity|].
  apply (chat_fresh_failure_keeps_creation sample_utcnow_at unreachable_service
           sample_str input_c3 empty_world (ClientError "connection refused"));
    reflexivity.
Defined.

(** C1, as stated, fails: in [empty_world] the completion for "c3" fails
    after the user message "test" was appended, [chat] raises the HTTP 500
    exception, and yet the turn wrote to the store: the collection, empty
    before, now holds the document [get_or_create_conversation] inserted. *)
Lemma chat_failure_after_creation_has_written :
  completion_outcome unreachable_service
    ([system_message] ++ [user_message input_c3])
    = Raises (ClientError "connection refused") /\
  fst (chat sample_utcnow_at unreachable_service sample_str input_c3
         empty_world)
    = Raises (HTTPException 500 "Error with Groq API: connection refused") /\
  conversations_collection empty_world = [] /\
  conversations_collection
    (snd (chat sample_utcnow_at unreachable_service sample_str input_c3
            empty_world))
    = [fresh_document sample_utcnow_at "c3" 0] /\
  conversations_collection
    (snd (chat sample_utcnow_at unreachable_service sample_str input_c3
            empty_world))
    <> conversations_collection empty_world /\
  trace
    (snd (chat sample_utcnow_at unreachable_service sample_str input_c3
            empty_world))
    = [FindOne "c3"; InsertOne (fresh_document sample_utcnow_at "c3" 0);
       CompletionsCreate [system_message; user_message input_c3]].
Proof. repeat split. discriminate. Qed.

(** Chat on the seeded conversation "c1" while the completion service is
    down. *)
Lemma chat_completion_failure_no_update_witness :
  get_or_create_conversation sample_utcnow_at
    (input_conversation_id input_c1) seeded_world
    = (Returns loaded_c1, seeded_world_c1_loaded) /\
  active loaded_c1 = true /\
  completion_outcome unreachable_service
    (messages loaded_c1 ++ [user_message input_c1])
    = Raises (ClientError "connection refused") /\
  exists w2,
    chat sample_utcnow_at unreachable_service sample_str input_c1 seeded_world =
      (Raises (HTTPException 500
                 (sample_str
                    (HTTPException 500
                       ("Error with Groq API: "
                          ++ sample_str (ClientError "connection refused"))))),
       w2) /\
    conversations_collection w2 =
      conversations_collection seeded_world_c1_loaded /\
    trace w2 =
      trace seeded_world_c1_loaded
        ++ [CompletionsCreate (messages loaded_c1 ++ [user_message input_c1])]
    /\
    (find_first (input_conversation_id input_c1)
       (conversations_collection seeded_world) <> None ->
     conversations_collection w2 = conversations_collection seeded_world).
Proof.
  split; [reflexivity|]. split; [reflexivity|]. split; [reflexivity|].
  apply (chat_completion_failure_no_update sample_utcnow_at unreachable_service
           sample_str input_c1 seeded_world loaded_c1 seeded_world_c1_loaded
           (ClientError "connection refused"));
    reflexivity.
Defined.

(** * Further properties of the program *)

(** ** More on the collection *)

Lemma find_first_absent_ids cid l :
  find_first cid l = None <-> ~ In cid (ids l).
Proof.
  induction l as [|d0 l IH]; simpl; [tauto|].
  unfold matches. destruct (String.eqb_spec (doc_conversation_id d0) cid).
  - split; [discriminate | intros H; exfalso; apply H; now left].
  - rewrite IH. tauto.
Qed.


Lemma find_first_in cid l d : find_first cid l = Some d -> In d l.
Proof.
  induction l as [|d0 l IH]; simpl; [discriminate|].
  destruct (matches cid d0).
  - intros H; injection H as <-. now left.
  - intros H; right; auto.
Qed.

Lemma set_first_length cid f l : length (set_first cid f l) = length l.
Proof.
  induction l as [|d0 l IH]; simpl; [reflexivity|].
  destruct (matches cid d0); simpl; [reflexivity | now rewrite IH].
Qed.

Lemma map_set_first_found {B} (g : Document -> B) cid f l d :
  find_first cid l = Some d -> g (f d) = g d ->
  map g (set_first cid f l) = map g l.
Proof.
  induction l as [|d0 l IH]; simpl; [discriminate|].
  destruct (matches cid d0); simpl.
  - intros H; injection H as <-. now intros ->.
  - intros H G. now rewrite IH.
Qed.

Lemma forallb_set_first p cid f l :
  (forall d, p (f d) = true) ->
  forallb p l = true -> forallb p (set_first cid f l) = true.
Proof.
  intros Hf. induction l as [|d0 l IH]; simpl; [reflexivity|].
  intros H. apply andb_prop in H as [H0 H1].
  destruct (matches cid d0); simpl.
  - now rewrite Hf, H1.
  - now rewrite H0, IH.
Qed.

Lemma remove_first_absent cid l :
  find_first cid l = None -> remove_first cid l = l.
Proof.
  induction l as [|d0 l IH]; simpl; [reflexivity|].
  destruct (matches cid d0); [discriminate|].
  intros H. now rewrite IH.
Qed.

Lemma remove_first_length cid l d :
  find_first cid l = Some d -> S (length (remove_first cid l)) = length l.
Proof.
  induction l as [|d0 l IH]; simpl; [discriminate|].
  destruct (matches cid d0); simpl; [reflexivity|].
  intros H. now rewrite IH.
Qed.

Lemma remove_first_count cid l d :
  find_first cid l = Some d ->
  S (count_id cid (remove_first cid l)) = count_id cid l.
Proof.
  unfold count_id. induction l as [|d0 l IH]; simpl; [discriminate|].
  destruct (matches cid d0) eqn:E; simpl.
  - reflexivity.
  - rewrite E. exact IH.
Qed.

Lemma remove_first_others cid l :
  others cid (remove_first cid l) = others cid l.
Proof.
  unfold others. induction l as [|d0 l IH]; simpl; [reflexivity|].
  destruct (matches cid d0) eqn:E; simpl.
  - reflexivity.
  - now rewrite E, IH.
Qed.

Lemma remove_first_incl cid l d : In d (remove_first cid l) -> In d l.
Proof.
  induction l as [|d0 l IH]; simpl; [tauto|].
  destruct (matches cid d0); simpl; [now right | intuition].
Qed.

Lemma remove_first_ids_NoDup cid l :
  NoDup (ids l) ->
  NoDup (ids (remove_first cid l)) /\
  find_first cid (remove_first cid l) = None.
Proof.
  unfold ids. induction l as [|d0 l IH]; simpl; [now split|].
  intros H. apply NoDup_cons_iff in H as [H0 H1].
  destruct (matches cid d0) eqn:E; simpl.
  - split; [assumption|]. apply find_first_absent_ids.
    unfold matches in E. apply String.eqb_eq in E. now rewrite <- E.
  - rewrite E. destruct (IH H1) as [N F]. split; [|assumption].
    apply NoDup_cons; [|assumption].
    intros I. apply H0. apply in_map_iff in I as (d & <- & I).
    apply in_map. eapply remove_first_incl; eassumption.
Qed.

(** ** More on draining *)

Lemma drain_chunks cs ending acc :
  forallb has_choice cs = true ->
  drain (stream_of_chunks cs ending) acc =
  drain ending (acc ++ total_output (map first_text cs))%string.
Proof.
  revert acc. induction cs as [|c cs IH]; intros acc; simpl.
  - now rewrite append_empty_r.
  - unfold has_choice at 1, first_text at 1.
    destruct (choices c) as [|choice more]; [discriminate|]. simpl.
    intros H. destruct (delta_content choice) as [s|]; simpl.
    + destruct (String.eqb_spec s "") as [->|_]; simpl; rewrite (IH _ H).
      * reflexivity.
      * now rewrite append_assoc.
    + now rewrite (IH _ H).
Qed.

Section Further.

Variable utcnow_at : nat -> datetime.
Variable completions_create : list Message -> Exception + Stream.
Variable str : Exception -> string.

(** ** The completion request *)

(** The reply of [query_groq_api] is the text of the first choice of every
    chunk, in arrival order: a content that is [None] or empty adds nothing
    and the other choices of a chunk are never read. *)
Theorem query_groq_api_first_choices conversation w cs :
  forallb has_choice cs = true ->
  completions_create (messages conversation)
    = inr (stream_of_chunks cs StreamEnd) ->
  query_groq_api completions_create str conversation w =
    (Returns (total_output (map first_text cs)),
     record (CompletionsCreate (messages conversation)) w).
Proof.
  intros H C. rewrite query_groq_api_run. unfold completion_outcome.
  now rewrite C, drain_chunks by assumption.
Qed.

(** A stream that breaks after any number of chunks makes [query_groq_api]
    raise the HTTP 500 exception naming the failure; the text received so
    far is dropped. *)
Theorem query_groq_api_broken_stream conversation w cs e :
  forallb has_choice cs = true ->
  completions_create (messages conversation)
    = inr (stream_of_chunks cs (StreamRaise e)) ->
  query_groq_api completions_create str conversation w =
    (Raises (HTTPException 500 ("Error with Groq API: " ++ str e)),
     record (CompletionsCreate (messages conversation)) w).
Proof.
  intros H C. rewrite query_groq_api_run. unfold completion_outcome.
  now rewrite C, drain_chunks by assumption.
Qed.

(** A chunk without choices, wherever it comes in the stream, ends the
    request with the HTTP 500 exception carrying the [IndexError]; what
    follows it in the stream is not read. *)
Theorem query_groq_api_chunk_without_choices conversation w cs rest :
  forallb has_choice cs = true ->
  completions_create (messages conversation)
    = inr (stream_of_chunks cs (StreamChunk {| choices := [] |} rest)) ->
  query_groq_api completions_create str conversation w =
    (Raises (HTTPException 500 ("Error with Groq API: " ++ str IndexError)),
     record (CompletionsCreate (messages conversation)) w).
Proof.
  intros H C. rewrite query_groq_api_run. unfold completion_outcome.
  now rewrite C, drain_chunks by assumption.
Qed.


(** ** The chat handler, case by case *)

Lemma chat_cases input w :
  let cid := input_conversation_id input in
  let l := conversations_collection w in
  let t := utcnow_at (S (S (clock w))) in
  let asked := user_message input in
  (exists data,
     find_first cid l = Some data /\ doc_active data = false /\
     chat utcnow_at completions_create str input w =
       (Raises (HTTPException 400
                  "The chat session has ended. Please start a new session."),
        {| conversations_collection := l;
           clock := S (S (clock w));
           trace := trace w ++ [FindOne cid] |})) \/
  (exists msgs l1 evs,
     ((exists data,
         find_first cid l = Some data /\ doc_active data = true /\
         msgs = doc_messages data /\ l1 = l /\ evs = [FindOne cid]) \/
      (find_first cid l = None /\ msgs = [system_message] /\
       l1 = l ++ [fresh_document utcnow_at cid (clock w)] /\
       evs = [FindOne cid;
              InsertOne (fresh_document utcnow_at cid (clock w))])) /\
     match completion_outcome completions_create (msgs ++ [asked]) with
     | Raises e =>
         chat utcnow_at completions_create str input w =
           (Raises (HTTPException 500
                      (str (HTTPException 500
                              ("Error with Groq API: " ++ str e)))),
            {| conversations_collection := l1;
               clock := S (S (clock w));
               trace := trace w ++ evs ++ [CompletionsCreate (msgs ++ [asked])]
            |})
     | Returns reply =>
         chat utcnow_at completions_create str input w =
           (Returns {| response := reply; response_conversation_id := cid |},
            {| conversations_collection :=
                 set_first cid
                   (set_fields (msgs ++ [asked; assistant_message reply])
                      true t) l1;
               clock := S (S (S (clock w)));
               trace := trace w ++ evs
                          ++ [CompletionsCreate (msgs ++ [asked]);
                              UpdateOne cid
                                (msgs ++ [asked; assistant_message reply])
                                true t] |})
     end).
Proof.
  intros cid l t asked.
  rewrite chat_run, get_or_create_conversation_run. fold cid l.
  destruct (find_first cid l) as [data|] eqn:F; cbv beta iota; simpl active.
  - destruct (doc_active data) eqn:A; simpl negb; cbv iota.
    + right. exists (doc_messages data), l, [FindOne cid].
      split; [left; exists data; auto 10|].
      rewrite chat_exchange_run. simpl. fold asked.
      destruct (completion_outcome completions_create
                  (doc_messages data ++ [asked])); unfold record; simpl;
        rewrite <- ?app_assoc; reflexivity.
    + left. exists data. auto.
  - right. exists [system_message].
    exists (l ++ [fresh_document utcnow_at cid (clock w)]).
    exists [FindOne cid; InsertOne (fresh_document utcnow_at cid (clock w))].
    split; [right; auto 10|].
    rewrite chat_exchange_run. simpl. fold asked.
    destruct (completion_outcome completions_create
                [system_message; asked]); unfold record; simpl;
      rewrite <- ?app_assoc; reflexivity.
Qed.

Ltac chat_by_cases input w :=
  let C := fresh "C" in
  pose proof (chat_cases input w) as C; cbv zeta in C;
  destruct C as [(data & F & A & E)
                | (msgs & l1 & evs
                   & [(data & F & A & -> & -> & ->) | (F & -> & -> & ->)]
                   & O)];
  [ rewrite E
  | destruct (completion_outcome completions_create _) as [reply|e];
    rewrite O ..].

Lemma find_first_fresh cid l n :
  find_first cid l = None ->
  find_first cid (l ++ [fresh_document utcnow_at cid n])
    = Some (fresh_document utcnow_at cid n).
Proof.
  intros F. rewrite (find_first_insert _ _ _ F).
  unfold matches; simpl. now rewrite String.eqb_refl.
Qed.

(** ** What a chat turn can and cannot do *)


(** Whatever its outcome, a chat turn leaves the id, the [active] flag and
    the [created_at] of every document as they were, position by position;
    it adds one document, active and created at the first clock reading of
    the turn, exactly when the id had none, and removes nothing. *)
Theorem chat_keeps_identities input w :
  let cid := input_conversation_id input in
  let l := conversations_collection w in
  let l' := conversations_collection
              (snd (chat utcnow_at completions_create str input w)) in
  map identity_of l' =
    map identity_of l
      ++ match find_first cid l with
         | Some _ => []
         | None => [(cid, true, utcnow_at (clock w))]
         end.
Proof.
  intros cid l l'. subst l' l cid. chat_by_cases input w; simpl; rewrite ?F.
  - now rewrite app_nil_r.
  - rewrite app_nil_r. apply (map_set_first_found _ _ _ _ data F).
    unfold identity_of; simpl. now rewrite A.
  - now rewrite app_nil_r.
  - rewrite (map_set_first_found _ _ _ _ _ (find_first_fresh _ _ _ F))
      by reflexivity.
    now rewrite map_app.
  - now rewrite map_app.
Qed.

(** Whatever its outcome, a chat turn on one id leaves the documents
    carrying any other id untouched, in number, order and content. *)
Theorem chat_leaves_other_conversations input w :
  let cid := input_conversation_id input in
  others cid (conversations_collection
                (snd (chat utcnow_at completions_create str input w)))
  = others cid (conversations_collection w).
Proof.
  intros cid. subst cid. unfold others.
  assert (N : forall l n,
             filter (fun d => negb (matches (input_conversation_id input) d))
               (l ++ [fresh_document utcnow_at (input_conversation_id input) n])
             = filter (fun d => negb (matches (input_conversation_id input) d))
                 l).
  { intros l n. rewrite filter_app. unfold matches at 2; simpl.
    now rewrite String.eqb_refl, app_nil_r. }
  chat_by_cases input w; simpl;
    rewrite ?filter_set_first by reflexivity; rewrite ?N; reflexivity.
Qed.

(** When no two documents share an id before a chat turn, no two do after
    it, whatever its outcome: [chat] never creates a second document for an
    id. *)
Theorem chat_keeps_ids_unique input w :
  NoDup (ids (conversations_collection w)) ->
  NoDup (ids (conversations_collection
                (snd (chat utcnow_at completions_create str input w)))).
Proof.
  intros H. unfold ids in *.
  assert (N : forall n,
             find_first (input_conversation_id input)
               (conversations_collection w) = None ->
             NoDup (map doc_conversation_id
                      (conversations_collection w
                         ++ [fresh_document utcnow_at
                               (input_conversation_id input) n]))).
  { intros n F. rewrite map_app. apply NoDup_app; [assumption | |].
    - repeat constructor. simpl. tauto.
    - intros a I [<-|[]]. simpl in I.
      now apply (proj1 (find_first_absent_ids _ _) F). }
  chat_by_cases input w; simpl;
    rewrite ?map_set_first by reflexivity; auto.
Qed.

(** When every stored message list starts with a message of role "system"
    before a chat turn, every one does after it, whatever its outcome. *)
Theorem chat_keeps_system_first input w :
  forallb starts_with_system (conversations_collection w) = true ->
  forallb starts_with_system
    (conversations_collection
       (snd (chat utcnow_at completions_create str input w))) = true.
Proof.
  intros H.
  assert (N : forall n,
             forallb starts_with_system
               (conversations_collection w
                  ++ [fresh_document utcnow_at
                        (input_conversation_id input) n]) = true).
  { intros n. rewrite forallb_app, H. reflexivity. }
  chat_by_cases input w; simpl; auto.
  - apply forallb_set_first; [|assumption].
    intros d. unfold starts_with_system; simpl.
    pose proof (proj1 (forallb_forall _ _) H data (find_first_in _ _ _ F))
      as S0.
    unfold starts_with_system in S0.
    destruct (doc_messages data); [discriminate | exact S0].
  - apply forallb_set_first; [|apply N]. reflexivity.
Qed.

(** ** Chat turns one after the other *)

Ltac chat_split input w :=
  let C := fresh "C" in
  pose proof (chat_cases input w) as C; cbv zeta in C;
  destruct C as [(data & F & A & E)
                | (msgs & l1 & evs
                   & [(data & F & A & -> & -> & ->) | (F & -> & -> & ->)]
                   & O)].

Lemma chat_success_step input w reply :
  let cid := input_conversation_id input in
  let l := conversations_collection w in
  usable cid l = true ->
  completion_outcome completions_create (history cid l ++ [user_message input])
    = Returns reply ->
  exists w1,
    chat utcnow_at completions_create str input w =
      (Returns {| response := reply; response_conversation_id := cid |}, w1) /\
    find_first cid (conversations_collection w1) =
      Some {| doc_conversation_id := cid;
              doc_messages :=
                history cid l ++ [user_message input; assistant_message reply];
              doc_active := true;
              doc_created_at :=
                match find_first cid l with
                | Some d => doc_created_at d
                | None => utcnow_at (clock w)
                end;
              doc_updated_at := utcnow_at (S (S (clock w))) |} /\
    clock w1 = S (S (S (clock w))).
Proof.
  intros cid l. subst cid l. unfold usable, history. intros U O'.
  chat_split input w; rewrite F in *.
  - congruence.
  - rewrite O' in O. eexists. split; [exact O|]. simpl. split; [|reflexivity].
    rewrite find_first_set_first, F by reflexivity. simpl.
    unfold set_fields. now rewrite (find_first_id _ _ _ F).
  - rewrite O' in O. eexists. split; [exact O|]. simpl. split; [|reflexivity].
    rewrite find_first_set_first, (find_first_fresh _ _ _ F) by reflexivity.
    reflexivity.
Qed.


(** Two successful chat turns on one conversation, one after the other: the
    second completion is asked with the whole first exchange in its
    history, and the stored list ends up as the starting list followed by
    both exchanges in order. *)
Theorem chat_twice_accumulates input1 input2 w reply1 reply2 :
  let cid := input_conversation_id input1 in
  let start := history cid (conversations_collection w) in
  input_conversation_id input2 = cid ->
  usable cid (conversations_collection w) = true ->
  completion_outcome completions_create (start ++ [user_message input1])
    = Returns reply1 ->
  completion_outcome completions_create
    (start ++ [user_message input1; assistant_message reply1;
               user_message input2])
    = Returns reply2 ->
  exists w1 w2,
    chat utcnow_at completions_create str input1 w =
      (Returns {| response := reply1; response_conversation_id := cid |},
       w1) /\
    chat utcnow_at completions_create str input2 w1 =
      (Returns {| response := reply2; response_conversation_id := cid |},
       w2) /\
    history cid (conversations_collection w2) =
      start ++ [user_message input1; assistant_message reply1;
                user_message input2; assistant_message reply2].
Proof.
  intros cid start I U O1 O2.
  destruct (chat_success_step input1 w reply1 U O1) as (w1 & R1 & F1 & _).
  fold cid in R1, F1. fold start in F1.
  assert (H1 : history cid (conversations_collection w1) =
               start ++ [user_message input1; assistant_message reply1])
    by (unfold history; now rewrite F1).
  assert (U1 : usable cid (conversations_collection w1) = true)
    by (unfold usable; now rewrite F1).
  rewrite <- I in H1, U1.
  destruct (chat_success_step input2 w1 reply2 U1) as (w2 & R2 & F2 & _).
  { rewrite H1, <- app_assoc. exact O2. }
  rewrite I in R2, F2, H1. exists w1, w2. split; [exact R1|].
  split; [exact R2|]. unfold history at 1. rewrite F2. simpl.
  now rewrite H1, <- app_assoc.
Qed.


(** ** Reading a conversation *)




(** ** Deleting a conversation *)

(** When a document carries the id, [delete_conversation] returns its
    message and removes exactly one document, one that carried the id: the
    documents with other ids are untouched and every document left was
    there before. *)
Theorem delete_conversation_removes_one cid w d :
  find_first cid (conversations_collection w) = Some d ->
  exists w',
    delete_conversation cid w =
      (Returns "Conversation deleted successfully", w') /\
    S (length (conversations_collection w'))
      = length (conversations_collection w) /\
    S (count_id cid (conversations_collection w'))
      = count_id cid (conversations_collection w) /\
    others cid (conversations_collection w')
      = others cid (conversations_collection w) /\
    (forall d', In d' (conversations_collection w') ->
                In d' (conversations_collection w)) /\
    clock w' = clock w /\
    trace w' = trace w ++ [DeleteOne cid].
Proof.
  intros F. unfold delete_conversation, bind, delete_one. rewrite F. simpl.
  eexists. split; [reflexivity|]. simpl.
  split; [now apply remove_first_length with d|].
  split; [now apply remove_first_count with d|].
  split; [apply remove_first_others|].
  split; [intros d'; apply remove_first_incl | split; reflexivity].
Qed.

(** When no document carries the id, [delete_conversation] raises the HTTP
    404 exception and the collection is what it was. *)
Theorem delete_conversation_not_found cid w :
  find_first cid (conversations_collection w) = None ->
  exists w',
    delete_conversation cid w =
      (Raises (HTTPException 404 "Conversation not found"), w') /\
    conversations_collection w' = conversations_collection w /\
    trace w' = trace w ++ [DeleteOne cid].
Proof.
  intros F. unfold delete_conversation, bind, delete_one. rewrite F. simpl.
  eexists. split; [reflexivity|]. simpl.
  split; [now apply remove_first_absent | reflexivity].
Qed.

(** In a collection where no two documents share an id, once
    [delete_conversation] has run on an id, reading that id and deleting it
    again both raise the HTTP 404 exception, and ids are still unshared. *)
Theorem delete_conversation_then_not_found cid w :
  NoDup (ids (conversations_collection w)) ->
  let w1 := snd (delete_conversation cid w) in
  fst (get_conversation cid w1)
    = Raises (HTTPException 404 "Conversation not found") /\
  fst (delete_conversation cid w1)
    = Raises (HTTPException 404 "Conversation not found") /\
  NoDup (ids (conversations_collection w1)).
Proof.
  intros H w1.
  destruct (remove_first_ids_NoDup cid _ H) as [N F].
  assert (K : conversations_collection w1
              = remove_first cid (conversations_collection w)).
  { subst w1. unfold delete_conversation, bind, delete_one.
    now destruct (find_first cid (conversations_collection w)). }
  unfold get_conversation, delete_conversation, bind, find_one, delete_one.
  rewrite K, F. simpl. auto.
Qed.

(** In such a collection, the conversation a chat finds after
    [delete_conversation] is a new one: [get_or_create_conversation] builds
    it from the system message alone, whatever was stored before. *)
Theorem delete_conversation_then_fresh cid w :
  NoDup (ids (conversations_collection w)) ->
  let w1 := snd (delete_conversation cid w) in
  fst (get_or_create_conversation utcnow_at cid w1)
    = Returns (fresh_conversation utcnow_at cid (clock w)) /\
  history cid (conversations_collection w1) = [system_message] /\
  usable cid (conversations_collection w1) = true.
Proof.
  intros H w1.
  destruct (remove_first_ids_NoDup cid _ H) as [N F].
  assert (K : conversations_collection w1
              = remove_first cid (conversations_collection w)
              /\ clock w1 = clock w).
  { subst w1. unfold delete_conversation, bind, delete_one.
    now destruct (find_first cid (conversations_collection w)). }
  destruct K as [K T].
  rewrite get_or_create_conversation_run. unfold history, usable.
  rewrite K, F, T. auto.
Qed.

End Further.

(** ** Further runs in concrete worlds *)

(** Four chunks: "hel", a [None] content, "lo" with a second choice, and an
    empty content. *)
Lemma query_groq_api_first_choices_witness :
  forallb has_choice sample_chunks = true /\
  chunked_service StreamEnd (messages loaded_c1)
    = inr (stream_of_chunks sample_chunks StreamEnd) /\
  query_groq_api (chunked_service StreamEnd) sample_str loaded_c1 seeded_world
    = (Returns "hello",
       record (CompletionsCreate (messages loaded_c1)) seeded_world).
Proof.
  split; [reflexivity|]. split; [reflexivity|].
  exact (query_groq_api_first_choices (chunked_service StreamEnd) sample_str
           loaded_c1 seeded_world sample_chunks eq_refl eq_refl).
Defined.

(** The same chunks, then the connection is reset. *)
Lemma query_groq_api_broken_stream_witness :
  forallb has_choice sample_chunks = true /\
  chunked_service (StreamRaise (ClientError "connection reset"))
    (messages loaded_c1)
    = inr (stream_of_chunks sample_chunks
             (StreamRaise (ClientError "connection reset"))) /\
  query_groq_api
    (chunked_service (StreamRaise (ClientError "connection reset")))
    sample_str loaded_c1 seeded_world
    = (Raises (HTTPException 500 "Error with Groq API: connection reset"),
       record (CompletionsCreate (messages loaded_c1)) seeded_world).
Proof.
  split; [reflexivity|]. split; [reflexivity|].
  exact (query_groq_api_broken_stream
           (chunked_service (StreamRaise (ClientError "connection reset")))
           sample_str loaded_c1 seeded_world sample_chunks
           (ClientError "connection reset") eq_refl eq_refl).
Defined.

(** The same chunks, then a chunk without choices and one more fragment. *)
Lemma query_groq_api_chunk_without_choices_witness :
  forallb has_choice sample_chunks = true /\
  chunked_service
    (StreamChunk {| choices := [] |} (stream_of_fragments ["!"]))
    (messages loaded_c1)
    = inr (stream_of_chunks sample_chunks
             (StreamChunk {| choices := [] |} (stream_of_fragments ["!"]))) /\
  query_groq_api
    (chunked_service
       (StreamChunk {| choices := [] |} (stream_of_fragments ["!"])))
    sample_str loaded_c1 seeded_world
    = (Raises (HTTPException 500
                 "Error with Groq API: list index out of range"),
       record (CompletionsCreate (messages loaded_c1)) seeded_world).
Proof.
  split; [reflexivity|]. split; [reflexivity|].
  exact (query_groq_api_chunk_without_choices
           (chunked_service
              (StreamChunk {| choices := [] |} (stream_of_fragments ["!"])))
           sample_str loaded_c1 seeded_world sample_chunks
           (stream_of_fragments ["!"]) eq_refl eq_refl).
Defined.

Lemma seeded_world_ids_unique :
  NoDup (ids (conversations_collection seeded_world)).
Proof.
  repeat constructor; simpl; intros H;
    repeat (destruct H as [H|H]; try discriminate H); exact H.
Defined.

(** A first chat on "c3" in the seeded store. *)
Lemma chat_keeps_ids_unique_witness :
  NoDup (ids (conversations_collection seeded_world)) /\
  NoDup (ids (conversations_collection
                (snd (chat sample_utcnow_at (streaming ["hel"; "lo"])
                        sample_str input_c3 seeded_world)))).
Proof.
  split; [exact seeded_world_ids_unique|].
  exact (chat_keeps_ids_unique sample_utcnow_at (streaming ["hel"; "lo"])
           sample_str input_c3 seeded_world seeded_world_ids_unique).
Defined.

(** A further chat on "c1" in the seeded store. *)
Lemma chat_keeps_system_first_witness :
  forallb starts_with_system (conversations_collection seeded_world) = true /\
  forallb starts_with_system
    (conversations_collection
       (snd (chat sample_utcnow_at (streaming ["hel"; "lo"]) sample_str
               input_c1 seeded_world))) = true.
Proof.
  split; [reflexivity|].
  exact (chat_keeps_system_first sample_utcnow_at (streaming ["hel"; "lo"])
           sample_str input_c1 seeded_world eq_refl).
Defined.

(** "test", then "test again", on the unknown id "c3". *)
Lemma chat_twice_accumulates_witness :
  input_conversation_id input_c3_retry = "c3" /\
  usable "c3" (conversations_collection empty_world) = true /\
  completion_outcome (streaming ["hel"; "lo"])
    (history "c3" (conversations_collection empty_world)
       ++ [user_message input_c3]) = Returns "hello" /\
  completion_outcome (streaming ["hel"; "lo"])
    (history "c3" (conversations_collection empty_world)
       ++ [user_message input_c3; assistant_message "hello";
           user_message input_c3_retry]) = Returns "hello" /\
  exists w1 w2,
    chat sample_utcnow_at (streaming ["hel"; "lo"]) sample_str input_c3
      empty_world =
      (Returns {| response := "hello"; response_conversation_id := "c3" |},
       w1) /\
    chat sample_utcnow_at (streaming ["hel"; "lo"]) sample_str input_c3_retry
      w1 =
      (Returns {| response := "hello"; response_conversation_id := "c3" |},
       w2) /\
    history "c3" (conversations_collection w2) =
      [system_message;
       {| role := "user"; content := "test" |};
       {| role := "assistant"; content := "hello" |};
       {| role := "user"; content := "test again" |};
       {| role := "assistant"; content := "hello" |}].
Proof.
  repeat (split; [reflexivity|]).
  exact (chat_twice_accumulates sample_utcnow_at (streaming ["hel"; "lo"])
           sample_str input_c3 input_c3_retry empty_world "hello" "hello"
           eq_refl eq_refl eq_refl eq_refl).
Defined.




(** Deleting "c1" from the seeded store. *)
Lemma delete_conversation_removes_one_witness :
  find_first "c1" (conversations_collection seeded_world) = Some stored_c1 /\
  exists w',
    delete_conversation "c1" seeded_world =
      (Returns "Conversation deleted successfully", w') /\
    S (length (conversations_collection w'))
      = length (conversations_collection seeded_world) /\
    S (count_id "c1" (conversations_collection w'))
      = count_id "c1" (conversations_collection seeded_world) /\
    others "c1" (conversations_collection w')
      = others "c1" (conversations_collection seeded_world) /\
    (forall d', In d' (conversations_collection w') ->
                In d' (conversations_collection seeded_world)) /\
    clock w' = clock seeded_world /\
    trace w' = trace seeded_world ++ [DeleteOne "c1"].
Proof.
  split; [reflexivity|].
  exact (delete_conversation_removes_one "c1" seeded_world stored_c1 eq_refl).
Defined.

(** Deleting the unknown id "c3" from the seeded store. *)
Lemma delete_conversation_not_found_witness :
  find_first "c3" (conversations_collection seeded_world) = None /\
  exists w',
    delete_conversation "c3" seeded_world =
      (Raises (HTTPException 404 "Conversation not found"), w') /\
    conversations_collection w' = conversations_collection seeded_world /\
    trace w' = trace seeded_world ++ [DeleteOne "c3"].
Proof.
  split; [reflexivity|].
  exact (delete_conversation_not_found "c3" seeded_world eq_refl).
Defined.

(** Deleting "c1" from the seeded store, then reading and deleting it. *)
Lemma delete_conversation_then_not_found_witness :
  NoDup (ids (conversations_collection seeded_world)) /\
  fst (get_conversation "c1" (snd (delete_conversation "c1" seeded_world)))
    = Raises (HTTPException 404 "Conversation not found") /\
  fst (delete_conversation "c1"
         (snd (delete_conversation "c1" seeded_world)))
    = Raises (HTTPException 404 "Conversation not found") /\
  NoDup (ids (conversations_collection
                (snd (delete_conversation "c1" seeded_world)))).
Proof.
  split; [exact seeded_world_ids_unique|].
  exact (delete_conversation_then_not_found "c1" seeded_world
           seeded_world_ids_unique).
Defined.

(** Deleting "c1" from the seeded store, then loading it. *)
Lemma delete_conversation_then_fresh_witness :
  NoDup (ids (conversations_collection seeded_world)) /\
  fst (get_or_create_conversation sample_utcnow_at "c1"
         (snd (delete_conversation "c1" seeded_world)))
    = Returns (fresh_conversation sample_utcnow_at "c1" 0) /\
  history "c1"
    (conversations_collection (snd (delete_conversation "c1" seeded_world)))
    = [system_message] /\
  usable "c1"
    (conversations_collection (snd (delete_conversation "c1" seeded_world)))
    = true.
Proof.
  split; [exact seeded_world_ids_unique|].
  exact (delete_conversation_then_fresh sample_utcnow_at "c1" seeded_world
           seeded_world_ids_unique).
Defined.
